(** * The countdown of [script.js]

    The repository holds two copies of one page script; they differ in the
    literal passed to [new Date(...)] and in the audio wiring, and share the
    function [updateCountdown] verbatim.  The development below embeds that
    function, the timer that drives it and the string formatting it relies
    on, and proves the properties of the countdown.

    Instants are epoch milliseconds as returned by [Date.prototype.getTime]:
    integers far inside the range in which JavaScript numbers are exact, so
    they are modelled by [Z].  On such values [Math.floor (a / b)] with a
    positive [b] is the floor quotient [Z.div], and [%] is the remainder that
    truncates toward zero and takes the sign of the dividend, [Z.rem]. *)

From Stdlib Require Import ZArith Lia List DecimalString DecimalZ.
From stdpp Require Import base strings gmap.

Local Open Scope Z_scope.

(** ** Arithmetic of one tick *)

Module Countdown.

(** [const distance = countdownDate - now;] *)
Definition distance (countdownDate now : Z) : Z := countdownDate - now.

(** [Math.floor(distance / (1000 * 60 * 60 * 24))] *)
Definition days (distance : Z) : Z :=
  distance / (1000 * 60 * 60 * 24).

(** [Math.floor((distance % (1000 * 60 * 60 * 24)) / (1000 * 60 * 60))] *)
Definition hours (distance : Z) : Z :=
  Z.rem distance (1000 * 60 * 60 * 24) / (1000 * 60 * 60).

(** [Math.floor((distance % (1000 * 60 * 60)) / (1000 * 60))] *)
Definition minutes (distance : Z) : Z :=
  Z.rem distance (1000 * 60 * 60) / (1000 * 60).

(** [Math.floor((distance % (1000 * 60)) / 1000)] *)
Definition seconds (distance : Z) : Z :=
  Z.rem distance (1000 * 60) / 1000.

(** The test of the final [if (distance < 0)]. *)
Definition expired (distance : Z) : bool := distance <? 0.

End Countdown.

Import Countdown.

(** ** Number formatting *)

(** [Number.prototype.toString] on an integer: its decimal digits, with a
    leading minus sign below zero; zero prints as one digit. *)
Definition toString (n : Z) : string :=
  NilZero.string_of_int (Z.to_int n).

(** [count] copies of [s], one after the other. *)
Fixpoint repeat_string (count : nat) (s : string) : string :=
  match count with
  | O => EmptyString
  | S k => s +:+ repeat_string k s
  end.

(** [String.prototype.padStart]: a string at least [maxLength] long, or an
    empty filler, leaves the string as it is; otherwise the filler is repeated
    and cut to the missing length, and put in front. *)
Definition padStart (str : string) (maxLength : nat) (fillString : string)
  : string :=
  let stringLength := String.length str in
  if (maxLength <=? stringLength)%nat then str
  else if String.eqb fillString EmptyString then str
  else
    let fillLen := (maxLength - stringLength)%nat in
    String.substring 0 fillLen (repeat_string fillLen fillString) +:+ str.

(** [value.toString().padStart(2, "0")], the text put into a slot. *)
Definition slot_text (value : Z) : string :=
  padStart (toString value) 2 "0".

(** ** The page *)

(** The calls by which the script changes the page. *)
Inductive DomOp : Type :=
| SetTextContent (id text : string)
| SetInnerHTML (id html : string)
| ClearInterval.

(** What the script can observe and change: the content of the elements that
    carry an id (the markup is not part of the script), whether the interval
    created by [setInterval] is still registered, and the calls performed so
    far, oldest first. *)
Record Page : Type := mkPage {
  document : gmap string string;
  countdownTimer : bool;
  journal : list DomOp
}.

(** Script code: it reads and changes the page; [None] is an uncaught
    [TypeError], past which the page is not followed. *)
Definition JS (A : Type) : Type := Page -> option (A * Page).

Definition ret {A : Type} (a : A) : JS A := fun p => Some (a, p).

Definition bind {A B : Type} (m : JS A) (k : A -> JS B) : JS B :=
  fun p =>
    match m p with
    | Some (a, p') => k a p'
    | None => None
    end.

Declare Scope js_scope.
Notation "m ;; k" := (bind m (fun _ => k))
  (at level 100, k at level 200, right associativity) : js_scope.
Delimit Scope js_scope with js.
Bind Scope js_scope with JS.
Local Open Scope js_scope.

(** [document.getElementById(id).textContent = text]; [getElementById] gives
    [null] for an id the page does not have, and the assignment then throws. *)
Definition setTextContent (id text : string) : JS unit :=
  fun p =>
    match document p !! id with
    | Some _ =>
        Some (tt, mkPage (<[id := text]> (document p)) (countdownTimer p)
                         (journal p ++ [SetTextContent id text]))
    | None => None
    end.

(** [document.getElementById(id).innerHTML = html] *)
Definition setInnerHTML (id html : string) : JS unit :=
  fun p =>
    match document p !! id with
    | Some _ =>
        Some (tt, mkPage (<[id := html]> (document p)) (countdownTimer p)
                         (journal p ++ [SetInnerHTML id html]))
    | None => None
    end.

(** [clearInterval(countdownTimer)] *)
Definition clearInterval : JS unit :=
  fun p => Some (tt, mkPage (document p) false (journal p ++ [ClearInterval])).

Definition terminal_message : string :=
  "<div class='time-box'><span>The Renaissance has begun!</span></div>".

(** [updateCountdown], with the reading of the clock, [new Date().getTime()],
    as the argument [now]. *)
Definition updateCountdown (countdownDate now : Z) : JS unit :=
  let distance := countdownDate - now in
  let days := distance / (1000 * 60 * 60 * 24) in
  let hours := Z.rem distance (1000 * 60 * 60 * 24) / (1000 * 60 * 60) in
  let minutes := Z.rem distance (1000 * 60 * 60) / (1000 * 60) in
  let seconds := Z.rem distance (1000 * 60) / 1000 in
  setTextContent "days" (padStart (toString days) 2 "0") ;;
  setTextContent "hours" (padStart (toString hours) 2 "0") ;;
  setTextContent "minutes" (padStart (toString minutes) 2 "0") ;;
  setTextContent "seconds" (padStart (toString seconds) 2 "0") ;;
  if distance <? 0 then
    clearInterval ;;
    setInnerHTML "countdown-boxes" terminal_message
  else ret tt.

(** ** The timer *)

(** [setInterval(updateCountdown, 1000)] registers the interval. *)
Definition setInterval : JS unit :=
  fun p => Some (tt, mkPage (document p) true (journal p)).

(** The host reaches the end of a period while the clock reads [now]: the
    callback runs if the interval is still registered, and nothing happens
    once it has been cleared. *)
Definition interval_elapses (countdownDate now : Z) : JS unit :=
  fun p =>
    if countdownTimer p then updateCountdown countdownDate now p
    else Some (tt, p).

(** The periods that elapse after the script has run, each with the reading
    of the clock at that moment. *)
Fixpoint event_loop (countdownDate : Z) (clock : list Z) : JS unit :=
  match clock with
  | [] => ret tt
  | now :: later =>
      interval_elapses countdownDate now ;; event_loop countdownDate later
  end.

(** The last two statements of the countdown part of the script, run while
    the clock reads [now], and the periods that follow:
    [const countdownTimer = setInterval(updateCountdown, 1000);
     updateCountdown();] *)
Definition script (countdownDate now : Z) (clock : list Z) : JS unit :=
  setInterval ;;
  updateCountdown countdownDate now ;;
  event_loop countdownDate clock.

(** ** Reading the journal *)

(** The four slot assignments of one tick, in the order of the source. *)
Definition slot_writes (countdownDate now : Z) : list DomOp :=
  let d := distance countdownDate now in
  [ SetTextContent "days" (slot_text (days d));
    SetTextContent "hours" (slot_text (hours d));
    SetTextContent "minutes" (slot_text (minutes d));
    SetTextContent "seconds" (slot_text (seconds d)) ].

(** The two calls of the expiry branch. *)
Definition expiry_ops : list DomOp :=
  [ ClearInterval; SetInnerHTML "countdown-boxes" terminal_message ].

Definition is_replacement (op : DomOp) : bool :=
  match op with
  | SetInnerHTML id _ => String.eqb id "countdown-boxes"
  | _ => false
  end.

(** How many times the display region was replaced. *)
Definition replacements (ops : list DomOp) : nat :=
  length (List.filter is_replacement ops).

(** The page has the five elements the script addresses. *)
Definition has_elements (p : Page) : Prop :=
  is_Some (document p !! "days") /\
  is_Some (document p !! "hours") /\
  is_Some (document p !! "minutes") /\
  is_Some (document p !! "seconds") /\
  is_Some (document p !! "countdown-boxes").

(** A page with the five elements, empty, before the script runs. *)
Definition blank_page : Page :=
  let empty := EmptyString in
  mkPage (<["days" := empty]> (<["hours" := empty]> (<["minutes" := empty]>
          (<["seconds" := empty]> (<["countdown-boxes" := empty]> ∅)))))
         false [].

(** The page one tick leaves behind, on a page that has the five elements. *)
Definition after_tick (countdownDate now : Z) (p : Page) : Page :=
  let d := distance countdownDate now in
  let slots :=
    <["seconds" := slot_text (seconds d)]>
      (<["minutes" := slot_text (minutes d)]>
         (<["hours" := slot_text (hours d)]>
            (<["days" := slot_text (days d)]> (document p)))) in
  if expired d then
    mkPage (<["countdown-boxes" := terminal_message]> slots) false
           (journal p ++ slot_writes countdownDate now ++ expiry_ops)
  else
    mkPage slots (countdownTimer p) (journal p ++ slot_writes countdownDate now).

(** C2 as stated, for one tick: a tick that finds the countdown expired
    assigns to no slot. *)
Definition slots_only_while_running : Prop :=
  forall (countdownDate now : Z) (p p' : Page),
    has_elements p ->
    updateCountdown countdownDate now p = Some (tt, p') ->
    expired (distance countdownDate now) = true ->
    forall id text : string,
      In (SetTextContent id text) (journal p') ->
      In (SetTextContent id text) (journal p).

(** The page has the four slots. *)
Definition has_slots (p : Page) : Prop :=
  is_Some (document p !! "days") /\
  is_Some (document p !! "hours") /\
  is_Some (document p !! "minutes") /\
  is_Some (document p !! "seconds").

(** The four slots hold the formatted units of the distance [d]. *)
Definition shows (p : Page) (d : Z) : Prop :=
  document p !! "days" = Some (slot_text (days d)) /\
  document p !! "hours" = Some (slot_text (hours d)) /\
  document p !! "minutes" = Some (slot_text (minutes d)) /\
  document p !! "seconds" = Some (slot_text (seconds d)).


(** The text of a slot read back as a decimal numeral. *)
Definition read_slot (text : string) : option Z :=
  option_map Z.of_int (NilZero.int_of_string text).

(** ** Examples *)

Example days_sample : days 172800000 = 2.
Proof. reflexivity. Qed.

Example hours_sample_negative : hours (-1) = -1.
Proof. reflexivity. Qed.

Example slot_text_samples :
  slot_text 7 = "07" /\ slot_text 23 = "23" /\ slot_text 0 = "00" /\
  slot_text (-1) = "-1" /\ slot_text 123 = "123".
Proof. repeat split; reflexivity. Qed.

Example tick_sample :
  option_map (fun r => journal (snd r)) (updateCountdown 0 1 blank_page) =
  Some [ SetTextContent "days" "-1"; SetTextContent "hours" "-1";
         SetTextContent "minutes" "-1"; SetTextContent "seconds" "-1";
         ClearInterval; SetInnerHTML "countdown-boxes" terminal_message ].
Proof. vm_compute. reflexivity. Qed.

(** ** The arithmetic of a distance *)

Section Units.

Variable d : Z.

(** From zero on, the truncating remainder is the usual one. *)
Lemma rem_running (m : Z) : 0 <= d -> 0 < m -> Z.rem d m = d mod m.
Proof. intros Hd Hm. apply Z.rem_mod_nonneg; lia. Qed.

(** Below zero, the truncating remainder is never positive. *)
Lemma rem_expired (m : Z) : d < 0 -> 0 < m -> - m < Z.rem d m <= 0.
Proof.
  intros Hd Hm.
  replace d with (- - d) by lia.
  rewrite Z.rem_opp_l by lia.
  pose proof (Z.rem_bound_pos (- d) m).
  lia.
Qed.

Lemma units_running :
  0 <= d ->
  0 <= days d /\ 0 <= hours d <= 23 /\
  0 <= minutes d <= 59 /\ 0 <= seconds d <= 59.
Proof.
  intros Hd. unfold days, hours, minutes, seconds.
  rewrite !rem_running by lia.
  change (1000 * 60 * 60 * 24) with 86400000.
  change (1000 * 60 * 60) with 3600000.
  change (1000 * 60) with 60000.
  pose proof (Z.mod_pos_bound d 86400000).
  pose proof (Z.mod_pos_bound d 3600000).
  pose proof (Z.mod_pos_bound d 60000).
  repeat split;
    first [ apply Z.div_pos; lia
          | apply Z.lt_succ_r, Z.div_lt_upper_bound; lia ].
Qed.

Lemma units_expired :
  d < 0 ->
  days d < 0 /\ hours d <= 0 /\ minutes d <= 0 /\ seconds d <= 0.
Proof.
  intros Hd. unfold days, hours, minutes, seconds.
  change (1000 * 60 * 60 * 24) with 86400000.
  change (1000 * 60 * 60) with 3600000.
  change (1000 * 60) with 60000.
  pose proof (rem_expired 86400000).
  pose proof (rem_expired 3600000).
  pose proof (rem_expired 60000).
  repeat split.
  - apply Z.div_lt_upper_bound; lia.
  - apply Z.lt_succ_r, Z.div_lt_upper_bound; lia.
  - apply Z.lt_succ_r, Z.div_lt_upper_bound; lia.
  - apply Z.lt_succ_r, Z.div_lt_upper_bound; lia.
Qed.

End Units.

(** ** One tick on the page *)

Lemma setTextContent_ok (id text : string) (p : Page) :
  is_Some (document p !! id) ->
  setTextContent id text p =
  Some (tt, mkPage (<[id := text]> (document p)) (countdownTimer p)
                   (journal p ++ [SetTextContent id text])).
Proof. intros [old Hold]. unfold setTextContent. rewrite Hold. reflexivity. Qed.

Lemma setInnerHTML_ok (id html : string) (p : Page) :
  is_Some (document p !! id) ->
  setInnerHTML id html p =
  Some (tt, mkPage (<[id := html]> (document p)) (countdownTimer p)
                   (journal p ++ [SetInnerHTML id html])).
Proof. intros [old Hold]. unfold setInnerHTML. rewrite Hold. reflexivity. Qed.

(** An assignment to an element keeps every element in place. *)
Lemma insert_keeps (doc : gmap string string) (id text other : string) :
  is_Some (doc !! other) -> is_Some (<[id := text]> doc !! other).
Proof. intros H. apply lookup_insert_is_Some'. right. exact H. Qed.

Create HintDb page.
#[local] Hint Resolve insert_keeps : page.

(** With its five elements in place a tick runs to its end, and the page it
    leaves is [after_tick]. *)
Lemma updateCountdown_runs (countdownDate now : Z) (p : Page) :
  has_elements p ->
  updateCountdown countdownDate now p =
  Some (tt, after_tick countdownDate now p).
Proof.
  intros (Hd & Hh & Hm & Hs & Hb).
  unfold updateCountdown, after_tick, expired, distance. cbv zeta.
  unfold bind at 1. rewrite setTextContent_ok by exact Hd.
  unfold bind at 1. rewrite setTextContent_ok by (cbn; auto with page).
  unfold bind at 1. rewrite setTextContent_ok by (cbn; auto with page).
  unfold bind at 1. rewrite setTextContent_ok by (cbn; auto 6 with page).
  cbn [document countdownTimer journal].
  destruct (countdownDate - now <? 0).
  - unfold bind, clearInterval.
    rewrite setInnerHTML_ok by (cbn; auto 6 with page).
    cbn [document countdownTimer journal].
    unfold slot_writes, expiry_ops, slot_text, days, hours, minutes, seconds,
      distance.
    cbv zeta. rewrite <- !app_assoc. reflexivity.
  - unfold ret, slot_writes, slot_text, days, hours, minutes, seconds, distance.
    cbv zeta. rewrite <- !app_assoc. reflexivity.
Qed.

Lemma after_tick_has_elements (countdownDate now : Z) (p : Page) :
  has_elements p -> has_elements (after_tick countdownDate now p).
Proof.
  intros (Hd & Hh & Hm & Hs & Hb). unfold after_tick. cbv zeta.
  destruct (expired _); unfold has_elements; cbn [document];
    repeat split; auto 7 with page.
Qed.

(** ** The remaining time *)

(** C1. Whenever the clock reads an instant before the target, the tick does
    not report expiry, none of the four units is negative, the hours lie in
    0..23, and the minutes and the seconds in 0..59. *)
Theorem remaining_before_target (countdownDate now : Z) :
  now < countdownDate ->
  let d := distance countdownDate now in
  expired d = false /\
  0 <= days d /\ 0 <= hours d <= 23 /\
  0 <= minutes d <= 59 /\ 0 <= seconds d <= 59.
Proof.
  intros Hlt d.
  assert (0 <= d) as Hd by (unfold d, distance; lia).
  split.
  - unfold expired. apply Z.ltb_ge. exact Hd.
  - apply units_running. exact Hd.
Qed.

Lemma remaining_before_target_witness :
  1700000000000 < 1735689599000 /\
  let d := distance 1735689599000 1700000000000 in
  expired d = false /\
  0 <= days d /\ 0 <= hours d <= 23 /\
  0 <= minutes d <= 59 /\ 0 <= seconds d <= 59.
Proof.
  split; [reflexivity | apply (remaining_before_target 1735689599000 1700000000000); reflexivity].
Defined.

(** C3, as the code has it. Whenever the clock reads an instant after the
    target, the tick reports expiry. *)
Theorem expired_after_target (countdownDate now : Z) :
  countdownDate < now -> expired (distance countdownDate now) = true.
Proof.
  intros Hlt. unfold expired, distance. apply Z.ltb_lt. lia.
Qed.

Lemma expired_after_target_witness :
  1735689599000 < 1735689599001 /\
  expired (distance 1735689599000 1735689599001) = true.
Proof.
  split; [reflexivity | apply (expired_after_target 1735689599000 1735689599001); reflexivity].
Defined.

(** C3 as stated fails when the clock reads the target itself: expiry is not
    reported at every instant from the target on. *)
Lemma expired_from_target_on_fails :
  ~ (forall countdownDate now : Z,
       now >= countdownDate -> expired (distance countdownDate now) = true).
Proof.
  intros H.
  specialize (H 1735689599000 1735689599000 ltac:(lia)).
  vm_compute in H. discriminate H.
Qed.

(** C4. When the clock reads the target itself the distance is zero, the four
    units are zero and expiry is not reported: the test is strict. *)
Theorem boundary_at_target (countdownDate : Z) :
  let d := distance countdownDate countdownDate in
  d = 0 /\ days d = 0 /\ hours d = 0 /\ minutes d = 0 /\ seconds d = 0 /\
  expired d = false.
Proof.
  intros d.
  assert (d = 0) as -> by (unfold d, distance; lia).
  repeat split.
Qed.

(** C8. A target 90,061,001 ms ahead of the clock gives one day, one hour, one
    minute and one second. *)
Theorem scenario_one_of_each (now : Z) :
  let d := distance (now + 90061001) now in
  d = 90061001 /\
  days d = 1 /\ hours d = 1 /\ minutes d = 1 /\ seconds d = 1.
Proof.
  intros d.
  assert (d = 90061001) as -> by (unfold d, distance; lia).
  repeat split.
Qed.

(** C9. Of two ticks 1000 ms apart, both with a distance that is not
    negative, the later shows the seconds of the earlier minus one, modulo
    60. *)
Theorem seconds_step (countdownDate now : Z) :
  0 <= distance countdownDate now ->
  0 <= distance countdownDate (now + 1000) ->
  seconds (distance countdownDate (now + 1000)) =
  (seconds (distance countdownDate now) - 1) mod 60.
Proof.
  unfold distance, seconds. intros Hnow Hlater.
  rewrite !Z.rem_mod_nonneg by lia.
  change (1000 * 60) with 60000.
  Z.to_euclidean_division_equations. lia.
Qed.

Lemma seconds_step_witness :
  0 <= distance 120000 0 /\ 0 <= distance 120000 (0 + 1000) /\
  seconds (distance 120000 (0 + 1000)) = (seconds (distance 120000 0) - 1) mod 60.
Proof.
  split; [ | split ];
    [ vm_compute; discriminate | vm_compute; discriminate
    | apply (seconds_step 120000 0); vm_compute; discriminate ].
Defined.

(** C10. From zero on, the four units add up to the distance cut down to
    whole seconds. *)
Theorem units_decompose (d : Z) :
  0 <= d ->
  days d * 86400000 + hours d * 3600000 + minutes d * 60000 +
  seconds d * 1000 = d - d mod 1000.
Proof.
  intros Hd. unfold days, hours, minutes, seconds.
  rewrite !Z.rem_mod_nonneg by lia.
  change (1000 * 60 * 60 * 24) with 86400000.
  change (1000 * 60 * 60) with 3600000.
  change (1000 * 60) with 60000.
  Z.to_euclidean_division_equations. lia.
Qed.

Lemma units_decompose_witness :
  0 <= 90061001 /\
  days 90061001 * 86400000 + hours 90061001 * 3600000 +
  minutes 90061001 * 60000 + seconds 90061001 * 1000 =
  90061001 - 90061001 mod 1000.
Proof.
  split; [ vm_compute; discriminate | apply (units_decompose 90061001); vm_compute; discriminate ].
Defined.

(** ** The text of a slot *)

(** Ten and more print with two digits at least. *)
Lemma toString_from_10 (v : Z) :
  10 <= v -> (2 <= String.length (toString v))%nat.
Proof.
  intros Hv. pose proof (DecimalZ.of_to v) as Hback.
  unfold toString. destruct (Z.to_int v) as [u|u].
  - destruct u as [|u|u|u|u|u|u|u|u|u|u];
      try (destruct u; [vm_compute in Hback; lia | cbn; lia ..]).
    vm_compute in Hback; lia.
  - assert (Z.of_int (Decimal.Neg u) <= 0); [|lia].
    unfold Z.of_int, Z.of_uint. lia.
Qed.

(** A hundred and more print with three digits at least. *)
Lemma toString_from_100 (v : Z) :
  100 <= v -> (3 <= String.length (toString v))%nat.
Proof.
  intros Hv. pose proof (DecimalZ.of_to v) as Hback.
  unfold toString. destruct (Z.to_int v) as [u|u].
  - destruct u as [|u|u|u|u|u|u|u|u|u|u]; [vm_compute in Hback; lia|..];
      (destruct u as [|u|u|u|u|u|u|u|u|u|u]; [vm_compute in Hback; lia|..];
      (destruct u; [vm_compute in Hback; lia | cbn; lia ..])).
  - assert (Z.of_int (Decimal.Neg u) <= 0); [|lia].
    unfold Z.of_int, Z.of_uint. lia.
Qed.

(** A string of two characters or more is left alone by the padding. *)
Lemma padStart_long (str : string) (maxLength : nat) (fillString : string) :
  (maxLength <= String.length str)%nat ->
  padStart str maxLength fillString = str.
Proof.
  intros Hlen. unfold padStart. cbv zeta.
  destruct (Nat.leb_spec maxLength (String.length str)) as [_|Hgt]; [reflexivity|lia].
Qed.

Lemma slot_text_one_digit (v : Z) :
  0 <= v <= 9 -> slot_text v = "0" +:+ toString v.
Proof.
  intros Hv.
  assert (v = 0 \/ v = 1 \/ v = 2 \/ v = 3 \/ v = 4 \/ v = 5 \/ v = 6 \/
          v = 7 \/ v = 8 \/ v = 9) as Hcases by lia.
  repeat (destruct Hcases as [-> | Hcases]; [reflexivity|]).
  subst v. reflexivity.
Qed.

Lemma slot_text_upto_99 (v : Z) :
  0 <= v <= 99 -> String.length (slot_text v) = 2%nat.
Proof.
  intros Hv.
  assert (forallb (fun k => Nat.eqb (String.length (slot_text (Z.of_nat k))) 2)
                  (seq 0 100) = true) as Hall by (vm_compute; reflexivity).
  rewrite forallb_forall in Hall.
  specialize (Hall (Z.to_nat v)).
  rewrite Z2Nat.id in Hall by lia.
  apply Nat.eqb_eq, Hall, in_seq. lia.
Qed.

(** C6, as the code has it. The text of a slot is the decimal print of the
    value, padded on the left with zeros to two characters: a value from 0
    to 9 gets a leading zero (7 gives "07"), a value from 10 on is printed as
    it is ("23" stays "23"); the text has two characters for the values from
    0 to 99 and more than two from 100 on. *)
Theorem slot_text_format (v : Z) :
  (0 <= v <= 9 -> slot_text v = "0" +:+ toString v) /\
  (10 <= v -> slot_text v = toString v) /\
  (0 <= v <= 99 -> String.length (slot_text v) = 2%nat) /\
  (100 <= v -> (2 < String.length (slot_text v))%nat) /\
  slot_text 7 = "07" /\ slot_text 23 = "23".
Proof.
  repeat split.
  - apply slot_text_one_digit.
  - intros Hv. apply padStart_long, toString_from_10, Hv.
  - apply slot_text_upto_99.
  - intros Hv. unfold slot_text.
    pose proof (toString_from_100 v Hv).
    rewrite padStart_long; lia.
Qed.

Lemma slot_text_format_witness :
  (0 <= 7 <= 9 /\ slot_text 7 = "0" +:+ toString 7) /\
  (10 <= 23 /\ slot_text 23 = toString 23) /\
  (0 <= 59 <= 99 /\ String.length (slot_text 59) = 2%nat) /\
  (100 <= 181 /\ (2 < String.length (slot_text 181))%nat).
Proof.
  destruct (slot_text_format 7) as (H7 & _).
  destruct (slot_text_format 23) as (_ & H23 & _).
  destruct (slot_text_format 59) as (_ & _ & H59 & _).
  destruct (slot_text_format 181) as (_ & _ & _ & H181 & _).
  split; [split; [lia | apply H7; lia] | ].
  split; [split; [lia | apply H23; lia] | ].
  split; [split; [lia | apply H59; lia] | ].
  split; [lia | apply H181; lia].
Defined.

(** C6 as stated fails for the days: with more than 99 days left, the text of
    the slot has three characters. *)
Lemma slot_text_two_characters_fails :
  ~ (forall countdownDate now : Z,
       now < countdownDate ->
       String.length (slot_text (days (distance countdownDate now))) = 2%nat).
Proof.
  intros H.
  specialize (H 1735689599000 1720000000000 ltac:(lia)).
  vm_compute in H. discriminate H.
Qed.

(** ** What a tick writes *)

Lemma blank_page_has_elements : has_elements blank_page.
Proof. repeat split; vm_compute; eexists; reflexivity. Qed.

(** C2, as the code has it. Every tick assigns the four formatted units to
    the four slots, expired or not.  While the countdown is not expired the
    tick does nothing else, and the slots then hold values that are not
    negative, with the hours in 0..23 and the minutes and seconds in 0..59.
    A tick that finds the countdown expired goes on, after the four
    assignments, to clear the interval and to replace the display region. *)
Theorem tick_writes_slots (countdownDate now : Z) (p : Page) :
  has_elements p ->
  let d := distance countdownDate now in
  exists p' : Page,
    updateCountdown countdownDate now p = Some (tt, p') /\
    journal p' =
      journal p ++ slot_writes countdownDate now ++
      (if expired d then expiry_ops else []) /\
    (expired d = false ->
       document p' !! "days" = Some (slot_text (days d)) /\
       document p' !! "hours" = Some (slot_text (hours d)) /\
       document p' !! "minutes" = Some (slot_text (minutes d)) /\
       document p' !! "seconds" = Some (slot_text (seconds d)) /\
       0 <= days d /\ 0 <= hours d <= 23 /\
       0 <= minutes d <= 59 /\ 0 <= seconds d <= 59) /\
    (expired d = true ->
       countdownTimer p' = false /\
       document p' !! "countdown-boxes" = Some terminal_message).
Proof.
  intros Hp d. exists (after_tick countdownDate now p).
  split; [apply updateCountdown_runs, Hp|].
  unfold after_tick. fold d. cbv zeta.
  destruct (expired d) eqn:Hexp; cbn [document countdownTimer journal].
  - split; [reflexivity|]. split; [discriminate|]. intros _.
    split; [reflexivity|]. apply lookup_insert_eq.
  - split; [rewrite app_nil_r; reflexivity|]. split; [|discriminate]. intros _.
    assert (0 <= d) as Hd by (unfold expired in Hexp; apply Z.ltb_ge, Hexp).
    repeat split; try apply (units_running d Hd).
    + rewrite !lookup_insert_ne by discriminate. apply lookup_insert_eq.
    + rewrite !lookup_insert_ne by discriminate. apply lookup_insert_eq.
    + rewrite !lookup_insert_ne by discriminate. apply lookup_insert_eq.
    + apply lookup_insert_eq.
Qed.

Lemma tick_writes_slots_witness :
  has_elements blank_page /\
  exists p' : Page,
    updateCountdown 1735689599000 1735689599001 blank_page = Some (tt, p') /\
    journal p' =
      journal blank_page ++ slot_writes 1735689599000 1735689599001 ++
      expiry_ops.
Proof.
  split; [exact blank_page_has_elements|].
  destruct (tick_writes_slots 1735689599000 1735689599001 blank_page
              blank_page_has_elements) as (p' & Hrun & Hjournal & _).
  exists p'. split; [exact Hrun | exact Hjournal].
Defined.

(** C2 as stated fails one millisecond after the target: that tick finds the
    countdown expired and still assigns to the slots. *)
Lemma slots_only_while_running_fails : ~ slots_only_while_running.
Proof.
  intros H.
  specialize (H 1735689599000 1735689599001 blank_page
                (after_tick 1735689599000 1735689599001 blank_page)
                blank_page_has_elements
                (updateCountdown_runs _ _ _ blank_page_has_elements)
                eq_refl "seconds" "-1").
  apply H. vm_compute. tauto.
Qed.

(** C7. Below zero, none of the four units is positive, and the days are
    negative; the tick assigns them to the slots as they are, and only then
    takes the expiry branch. *)
Theorem units_after_expiry (countdownDate now : Z) (p : Page) :
  has_elements p ->
  distance countdownDate now < 0 ->
  let d := distance countdownDate now in
  days d < 0 /\ hours d <= 0 /\ minutes d <= 0 /\ seconds d <= 0 /\
  exists p' : Page,
    updateCountdown countdownDate now p = Some (tt, p') /\
    journal p' =
      journal p ++
      [ SetTextContent "days" (slot_text (days d));
        SetTextContent "hours" (slot_text (hours d));
        SetTextContent "minutes" (slot_text (minutes d));
        SetTextContent "seconds" (slot_text (seconds d));
        ClearInterval;
        SetInnerHTML "countdown-boxes" terminal_message ].
Proof.
  intros Hp Hd d.
  destruct (units_expired d Hd) as (H1 & H2 & H3 & H4).
  repeat (split; [assumption|]).
  exists (after_tick countdownDate now p).
  split; [apply updateCountdown_runs, Hp|].
  unfold after_tick. fold d. cbv zeta.
  assert (expired d = true) as -> by (apply Z.ltb_lt, Hd).
  reflexivity.
Qed.

Lemma units_after_expiry_witness :
  has_elements blank_page /\
  distance 1735689599000 1735689599001 < 0 /\
  days (distance 1735689599000 1735689599001) < 0 /\
  seconds (distance 1735689599000 1735689599001) <= 0.
Proof.
  split; [exact blank_page_has_elements|].
  split; [reflexivity|].
  destruct (units_after_expiry 1735689599000 1735689599001 blank_page
              blank_page_has_elements eq_refl) as (Hd & _ & _ & Hs & _).
  split; [exact Hd | exact Hs].
Defined.

(** ** From running to finished *)

Lemma replacements_app (ops ops' : list DomOp) :
  replacements (ops ++ ops') = (replacements ops + replacements ops')%nat.
Proof. unfold replacements. rewrite List.filter_app, length_app. reflexivity. Qed.

Lemma replacements_slot_writes (countdownDate : Z) (clock : list Z) :
  replacements (concat (map (slot_writes countdownDate) clock)) = 0%nat.
Proof.
  induction clock as [|now later IH]; [reflexivity|].
  cbn [map concat]. rewrite replacements_app, IH. reflexivity.
Qed.

(** Once the interval is cleared, the periods that elapse leave the page as
    it is. *)
Lemma event_loop_finished (countdownDate : Z) (clock : list Z) (p : Page) :
  countdownTimer p = false ->
  event_loop countdownDate clock p = Some (tt, p).
Proof.
  intros Hoff. induction clock as [|now later IH]; [reflexivity|].
  cbn [event_loop]. unfold bind, interval_elapses. rewrite Hoff. exact IH.
Qed.

(** A tick before expiry keeps the interval and the display region. *)
Lemma after_tick_running (countdownDate now : Z) (p : Page) :
  now <= countdownDate ->
  after_tick countdownDate now p =
  mkPage (document (after_tick countdownDate now p)) (countdownTimer p)
         (journal p ++ slot_writes countdownDate now) /\
  document (after_tick countdownDate now p) !! "countdown-boxes" =
  document p !! "countdown-boxes".
Proof.
  intros Hle. unfold after_tick. cbv zeta.
  assert (expired (distance countdownDate now) = false) as ->
    by (apply Z.ltb_ge; unfold distance; lia).
  split; [reflexivity|]. cbn [document].
  rewrite !lookup_insert_ne by discriminate. reflexivity.
Qed.

(** The periods up to the first that finds the countdown expired: every one
    of them writes the slots, that one ends the countdown, and those after it
    do nothing. *)
Lemma event_loop_expires (countdownDate now : Z) (pre post : list Z) :
  Forall (fun t => t <= countdownDate) pre ->
  countdownDate < now ->
  forall p : Page,
    has_elements p ->
    countdownTimer p = true ->
    exists p' : Page,
      event_loop countdownDate (pre ++ now :: post) p = Some (tt, p') /\
      countdownTimer p' = false /\
      document p' !! "countdown-boxes" = Some terminal_message /\
      journal p' =
        journal p ++ concat (map (slot_writes countdownDate) pre) ++
        slot_writes countdownDate now ++ expiry_ops.
Proof.
  intros Hpre Hnow. induction Hpre as [|t pre Ht Hpre IH]; intros p Hp Hon.
  - cbn [app event_loop map concat]. unfold bind, interval_elapses.
    rewrite Hon, (updateCountdown_runs _ _ _ Hp).
    assert (expired (distance countdownDate now) = true) as Hexp
      by (apply Z.ltb_lt; unfold distance; lia).
    assert (countdownTimer (after_tick countdownDate now p) = false) as Hoff
      by (unfold after_tick; cbv zeta; rewrite Hexp; reflexivity).
    exists (after_tick countdownDate now p).
    split; [apply event_loop_finished, Hoff|].
    split; [exact Hoff|].
    unfold after_tick. cbv zeta. rewrite Hexp. cbn [document journal].
    split; [apply lookup_insert_eq | reflexivity].
  - cbn [app event_loop map concat]. unfold bind at 1. unfold interval_elapses.
    rewrite Hon, (updateCountdown_runs _ _ _ Hp).
    destruct (after_tick_running countdownDate t p Ht) as (Hshape & _).
    destruct (IH (after_tick countdownDate t p)) as (p' & Hrun & Hoff & Hbox & Hj).
    + apply after_tick_has_elements, Hp.
    + rewrite Hshape. cbn [countdownTimer]. exact Hon.
    + exists p'. repeat (split; [assumption|]).
      rewrite Hj, Hshape. cbn [journal]. rewrite <- !app_assoc. reflexivity.
Qed.

(** The script is the interval set, followed by one period for the direct
    call and one for each period of the clock. *)
Lemma script_as_loop (countdownDate now : Z) (clock : list Z) (p : Page) :
  script countdownDate now clock p =
  event_loop countdownDate (now :: clock)
             (mkPage (document p) true (journal p)).
Proof. reflexivity. Qed.

(** C5. Take the ticks of a run in order, the direct call first, and let one
    of them be the first to find the countdown expired.  That tick clears the
    interval and replaces the display region with the terminal message; the
    journal of the run ends with these two calls, so that the region is
    replaced once and no slot is assigned afterwards, whatever the clock
    reads later; and from the page so reached, no period that elapses changes
    anything: the countdown does not run again. *)
Theorem terminal_transition
  (countdownDate start : Z) (clock pre post : list Z) (now : Z) (p : Page) :
  has_elements p ->
  start :: clock = pre ++ now :: post ->
  Forall (fun t => t <= countdownDate) pre ->
  countdownDate < now ->
  exists p' : Page,
    script countdownDate start clock p = Some (tt, p') /\
    countdownTimer p' = false /\
    document p' !! "countdown-boxes" = Some terminal_message /\
    journal p' =
      journal p ++ concat (map (slot_writes countdownDate) pre) ++
      slot_writes countdownDate now ++ expiry_ops /\
    replacements (journal p') = (replacements (journal p) + 1)%nat /\
    forall later : list Z, event_loop countdownDate later p' = Some (tt, p').
Proof.
  intros Hp Hsplit Hpre Hnow.
  rewrite script_as_loop, Hsplit.
  destruct (event_loop_expires countdownDate now pre post Hpre Hnow
              (mkPage (document p) true (journal p)) Hp eq_refl)
    as (p' & Hrun & Hoff & Hbox & Hj).
  cbn [journal] in Hj.
  exists p'. repeat (split; [assumption|]). split.
  - rewrite Hj, !replacements_app, replacements_slot_writes. reflexivity.
  - intros later. apply event_loop_finished, Hoff.
Qed.

Lemma terminal_transition_witness :
  let countdownDate := 1735689599000 in
  let pre := [1735689597000; 1735689598000; 1735689599000] in
  let post := [1735689601000; 1735689594000] in
  has_elements blank_page /\
  Forall (fun t => t <= countdownDate) pre /\
  countdownDate < 1735689600000 /\
  exists p' : Page,
    script countdownDate 1735689597000
           [1735689598000; 1735689599000; 1735689600000;
            1735689601000; 1735689594000] blank_page = Some (tt, p') /\
    countdownTimer p' = false /\
    replacements (journal p') = 1%nat.
Proof.
  intros countdownDate pre post.
  assert (Forall (fun t => t <= countdownDate) pre) as Hpre
    by (repeat constructor; vm_compute; discriminate).
  split; [exact blank_page_has_elements|].
  split; [exact Hpre|].
  split; [reflexivity|].
  destruct (terminal_transition countdownDate 1735689597000
              [1735689598000; 1735689599000; 1735689600000;
               1735689601000; 1735689594000]
              pre post 1735689600000 blank_page
              blank_page_has_elements eq_refl Hpre eq_refl)
    as (p' & Hrun & Hoff & _ & _ & Hcount & _).
  exists p'. split; [exact Hrun|]. split; [exact Hoff | exact Hcount].
Defined.

(** ** When a tick completes, and what it leaves alone *)

(** A tick that completes found the four slots, found the display region if
    the countdown was expired, and left the page [after_tick] describes. *)
Lemma updateCountdown_result (countdownDate now : Z) (p p' : Page) :
  updateCountdown countdownDate now p = Some (tt, p') ->
  has_slots p /\
  (expired (distance countdownDate now) = true ->
   is_Some (document p !! "countdown-boxes")) /\
  p' = after_tick countdownDate now p.
Proof.
  unfold updateCountdown, after_tick, expired, distance, has_slots.
  cbv zeta. unfold bind, setTextContent.
  destruct (document p !! "days") as [d0|] eqn:Hd; [|discriminate].
  cbn [document countdownTimer journal].
  rewrite lookup_insert_ne by discriminate.
  destruct (document p !! "hours") as [h0|] eqn:Hh; [|discriminate].
  cbn [document countdownTimer journal].
  rewrite !lookup_insert_ne by discriminate.
  destruct (document p !! "minutes") as [m0|] eqn:Hm; [|discriminate].
  cbn [document countdownTimer journal].
  rewrite !lookup_insert_ne by discriminate.
  destruct (document p !! "seconds") as [s0|] eqn:Hs; [|discriminate].
  cbn [document countdownTimer journal].
  destruct (countdownDate - now <? 0).
  - unfold clearInterval, setInnerHTML. cbn [document countdownTimer journal].
    rewrite !lookup_insert_ne by discriminate.
    destruct (document p !! "countdown-boxes") as [b0|] eqn:Hb; [|discriminate].
    intros [= <-]. repeat split; eauto.
    unfold slot_writes, expiry_ops, slot_text, days, hours, minutes, seconds,
      distance.
    cbv zeta. rewrite <- !app_assoc. reflexivity.
  - unfold ret. intros [= <-]. repeat split; eauto; try discriminate.
    unfold slot_writes, slot_text, days, hours, minutes, seconds, distance.
    cbv zeta. rewrite <- !app_assoc. reflexivity.
Qed.

(** With the four slots, and the display region if the countdown is expired,
    a tick completes. *)
Lemma tick_completes_with_elements (countdownDate now : Z) (p : Page) :
  has_slots p /\
  (countdownDate < now -> is_Some (document p !! "countdown-boxes")) ->
  is_Some (updateCountdown countdownDate now p).
Proof.
  intros ((Hd & Hh & Hm & Hs) & Hbox).
  destruct (Z.ltb_spec (countdownDate - now) 0) as [Hneg|Hpos].
  - rewrite updateCountdown_runs; [eexists; reflexivity|].
    repeat split; try assumption. apply Hbox. lia.
  - unfold updateCountdown. cbv zeta. unfold bind.
    rewrite setTextContent_ok by exact Hd.
    rewrite setTextContent_ok by (cbn; auto with page).
    rewrite setTextContent_ok by (cbn; auto with page).
    rewrite setTextContent_ok by (cbn; auto 6 with page).
    destruct (Z.ltb_spec (countdownDate - now) 0); [lia|].
    eexists; reflexivity.
Qed.

(** X1. A tick completes exactly when the page has the four slots and, if the
    countdown is expired, the display region as well; a missing element makes
    it throw. *)
Theorem updateCountdown_completes_iff (countdownDate now : Z) (p : Page) :
  is_Some (updateCountdown countdownDate now p) <->
  has_slots p /\
  (countdownDate < now -> is_Some (document p !! "countdown-boxes")).
Proof.
  split.
  - intros [[[] p'] Hrun].
    destruct (updateCountdown_result _ _ _ _ Hrun) as (Hslots & Hbox & _).
    split; [exact Hslots|]. intros Hlt. apply Hbox.
    apply Z.ltb_lt. unfold distance. lia.
  - apply tick_completes_with_elements.
Qed.

Example tick_without_slots :
  updateCountdown 1735689599000 1700000000000
    (mkPage (<["countdown-boxes" := terminal_message]> ∅) true []) = None.
Proof. vm_compute. reflexivity. Qed.




(** X3. A tick at an instant up to the target leaves the interval registered
    as it was, does not touch the display region, and performs the four slot
    assignments and nothing else. *)
Theorem running_tick_keeps_region (countdownDate now : Z) (p p' : Page) :
  now <= countdownDate ->
  updateCountdown countdownDate now p = Some (tt, p') ->
  countdownTimer p' = countdownTimer p /\
  document p' !! "countdown-boxes" = document p !! "countdown-boxes" /\
  journal p' = journal p ++ slot_writes countdownDate now /\
  shows p' (distance countdownDate now).
Proof.
  intros Hle Hrun.
  destruct (updateCountdown_result _ _ _ _ Hrun) as (_ & _ & ->).
  destruct (after_tick_running countdownDate now p Hle) as (Hshape & Hbox).
  split; [rewrite Hshape; reflexivity|].
  split; [exact Hbox|].
  split; [rewrite Hshape; reflexivity|].
  unfold shows, after_tick. cbv zeta.
  assert (expired (distance countdownDate now) = false) as ->
    by (apply Z.ltb_ge; unfold distance; lia).
  cbn [document].
  repeat split;
    rewrite ?lookup_insert_ne by discriminate; apply lookup_insert_eq.
Qed.

Lemma running_tick_keeps_region_witness :
  1735689598000 <= 1735689599000 /\
  exists p' : Page,
    updateCountdown 1735689599000 1735689598000 blank_page = Some (tt, p') /\
    countdownTimer p' = countdownTimer blank_page /\
    document p' !! "seconds" = Some "01".
Proof.
  split; [vm_compute; discriminate|].
  exists (after_tick 1735689599000 1735689598000 blank_page).
  pose proof (updateCountdown_runs 1735689599000 1735689598000 blank_page
                blank_page_has_elements) as Hrun.
  split; [exact Hrun|].
  destruct (running_tick_keeps_region 1735689599000 1735689598000 _ _
              ltac:(vm_compute; discriminate) Hrun)
    as (Htimer & _ & _ & (_ & _ & _ & Hsec)).
  split; [exact Htimer | exact Hsec].
Defined.

(** ** Runs of the script *)

Lemma after_tick_shows (countdownDate now : Z) (p : Page) :
  now <= countdownDate ->
  shows (after_tick countdownDate now p) (distance countdownDate now).
Proof.
  intros Hle. unfold shows, after_tick. cbv zeta.
  assert (expired (distance countdownDate now) = false) as ->
    by (apply Z.ltb_ge; unfold distance; lia).
  cbn [document].
  repeat split;
    rewrite ?lookup_insert_ne by discriminate; apply lookup_insert_eq.
Qed.

(** Periods that all elapse up to the target: each writes the slots, the
    interval stays registered, and the slots show the last of them. *)
Lemma event_loop_running (countdownDate : Z) (clock : list Z) :
  Forall (fun t => t <= countdownDate) clock ->
  forall p : Page,
    has_elements p ->
    countdownTimer p = true ->
    exists p' : Page,
      event_loop countdownDate clock p = Some (tt, p') /\
      countdownTimer p' = true /\
      document p' !! "countdown-boxes" = document p !! "countdown-boxes" /\
      journal p' =
        journal p ++ concat (map (slot_writes countdownDate) clock) /\
      forall t : Z,
        last clock = Some t -> shows p' (distance countdownDate t).
Proof.
  induction 1 as [|t later Ht Hlater IH]; intros p Hp Hon.
  - exists p. cbn [event_loop map concat]. rewrite app_nil_r.
    split; [reflexivity|]. split; [exact Hon|]. split; [reflexivity|].
    split; [reflexivity|]. intros t [=].
  - cbn [event_loop map concat]. unfold bind at 1. unfold interval_elapses.
    rewrite Hon, (updateCountdown_runs _ _ _ Hp).
    destruct (after_tick_running countdownDate t p Ht) as (Hshape & Hbox).
    destruct (IH (after_tick countdownDate t p))
      as (p' & Hrun & Hon' & Hbox' & Hj & Hlast).
    + apply after_tick_has_elements, Hp.
    + rewrite Hshape. exact Hon.
    + exists p'. split; [exact Hrun|]. split; [exact Hon'|].
      split; [rewrite Hbox'; exact Hbox|].
      split; [rewrite Hj, Hshape; cbn [journal]; rewrite <- !app_assoc; reflexivity|].
      intros u Hu. destruct later as [|t' later'].
      * cbn in Hu. injection Hu as <-. cbn [event_loop] in Hrun.
        unfold ret in Hrun. injection Hrun as <-.
        apply after_tick_shows, Ht.
      * apply Hlast. exact Hu.
Qed.

(** X4. While no tick of a run comes after the target, the script completes
    with the interval still registered and the display region untouched; it
    has performed the four slot assignments of every tick and nothing else,
    and the slots show the units of the last tick. *)
Theorem countdown_keeps_running
  (countdownDate start : Z) (clock : list Z) (p : Page) :
  has_elements p ->
  Forall (fun t => t <= countdownDate) (start :: clock) ->
  exists p' : Page,
    script countdownDate start clock p = Some (tt, p') /\
    countdownTimer p' = true /\
    document p' !! "countdown-boxes" = document p !! "countdown-boxes" /\
    journal p' =
      journal p ++ concat (map (slot_writes countdownDate) (start :: clock)) /\
    replacements (journal p') = replacements (journal p) /\
    forall t : Z,
      last (start :: clock) = Some t -> shows p' (distance countdownDate t).
Proof.
  intros Hp Hall. rewrite script_as_loop.
  destruct (event_loop_running countdownDate (start :: clock) Hall
              (mkPage (document p) true (journal p)) Hp eq_refl)
    as (p' & Hrun & Hon & Hbox & Hj & Hlast).
  cbn [document journal] in Hbox, Hj.
  exists p'. repeat (split; [assumption|]).
  split; [|exact Hlast].
  rewrite Hj, replacements_app, replacements_slot_writes. lia.
Qed.

Lemma countdown_keeps_running_witness :
  has_elements blank_page /\
  Forall (fun t => t <= 1735689599000)
         [1735689597000; 1735689598000; 1735689599000] /\
  exists p' : Page,
    script 1735689599000 1735689597000 [1735689598000; 1735689599000]
           blank_page = Some (tt, p') /\
    countdownTimer p' = true /\
    replacements (journal p') = replacements (journal blank_page).
Proof.
  assert (Forall (fun t => t <= 1735689599000)
                 [1735689597000; 1735689598000; 1735689599000]) as Hall
    by (repeat constructor; vm_compute; discriminate).
  split; [exact blank_page_has_elements|]. split; [exact Hall|].
  destruct (countdown_keeps_running 1735689599000 1735689597000
              [1735689598000; 1735689599000] blank_page
              blank_page_has_elements Hall)
    as (p' & Hrun & Hon & _ & _ & Hcount & _).
  exists p'. split; [exact Hrun|]. split; [exact Hon | exact Hcount].
Defined.

(** A run either never passes the target or has a first tick that does. *)
Lemma first_expired_split (countdownDate : Z) (clock : list Z) :
  (Forall (fun t => t <= countdownDate) clock /\
   existsb (fun t => countdownDate <? t) clock = false) \/
  (exists (pre : list Z) (now : Z) (post : list Z),
      clock = pre ++ now :: post /\
      Forall (fun t => t <= countdownDate) pre /\
      countdownDate < now /\
      existsb (fun t => countdownDate <? t) clock = true).
Proof.
  induction clock as [|t later IH].
  - left. split; [constructor | reflexivity].
  - destruct (Z.ltb_spec countdownDate t) as [Hlt|Hle].
    + right. exists [], t, later. cbn [app existsb].
      repeat split; [constructor | exact Hlt |].
      apply orb_true_iff. left. apply Z.ltb_lt, Hlt.
    + destruct IH as [(Hall & Hex) | (pre & now & post & -> & Hpre & Hnow & Hex)].
      * left. split; [constructor; assumption|].
        cbn [existsb]. rewrite Hex.
        apply orb_false_iff. split; [apply Z.ltb_ge, Hle | reflexivity].
      * right. exists (t :: pre), now, post.
        repeat split; [constructor; assumption | exact Hnow |].
        cbn [app existsb]. cbn [app] in Hex. rewrite Hex. apply orb_true_r.
Qed.

(** X5. On a page with the five elements the script completes, whatever the
    clock reads.  The interval is left registered exactly when no tick came
    after the target, and the display region has been replaced once if one
    did and not at all otherwise. *)
Theorem script_outcome
  (countdownDate start : Z) (clock : list Z) (p : Page) :
  has_elements p ->
  exists p' : Page,
    script countdownDate start clock p = Some (tt, p') /\
    countdownTimer p' =
      negb (existsb (fun t => countdownDate <? t) (start :: clock)) /\
    replacements (journal p') =
      (replacements (journal p) +
       (if existsb (fun t => (countdownDate <? t)%Z) (start :: clock)
        then 1 else 0))%nat.
Proof.
  intros Hp.
  destruct (first_expired_split countdownDate (start :: clock))
    as [(Hall & ->) | (pre & now & post & Hsplit & Hpre & Hnow & ->)].
  - rewrite script_as_loop.
    destruct (event_loop_running countdownDate (start :: clock) Hall
                (mkPage (document p) true (journal p)) Hp eq_refl)
      as (p' & Hrun & Hon & _ & Hj & _).
    cbn [journal] in Hj.
    exists p'. split; [exact Hrun|]. split; [exact Hon|].
    rewrite Hj, replacements_app, replacements_slot_writes. reflexivity.
  - rewrite script_as_loop, Hsplit.
    destruct (event_loop_expires countdownDate now pre post Hpre Hnow
                (mkPage (document p) true (journal p)) Hp eq_refl)
      as (p' & Hrun & Hoff & _ & Hj).
    cbn [journal] in Hj.
    exists p'. split; [exact Hrun|]. split; [exact Hoff|].
    rewrite Hj, !replacements_app, replacements_slot_writes. reflexivity.
Qed.

Lemma script_outcome_witness :
  has_elements blank_page /\
  exists p' : Page,
    script 1735689599000 1735689598000 [1735689599001; 1735689597000]
           blank_page = Some (tt, p') /\
    countdownTimer p' = false /\
    replacements (journal p') = 1%nat.
Proof.
  split; [exact blank_page_has_elements|].
  destruct (script_outcome 1735689599000 1735689598000
              [1735689599001; 1735689597000] blank_page
              blank_page_has_elements)
    as (p' & Hrun & Htimer & Hcount).
  exists p'. split; [exact Hrun|]. split; [exact Htimer | exact Hcount].
Defined.

Lemma after_tick_overwrites (countdownDate earlier later : Z) (p : Page) :
  earlier <= countdownDate ->
  document (after_tick countdownDate later (after_tick countdownDate earlier p)) =
  document (after_tick countdownDate later p) /\
  countdownTimer (after_tick countdownDate later (after_tick countdownDate earlier p)) =
  countdownTimer (after_tick countdownDate later p).
Proof.
  intros Hle. unfold after_tick. cbv zeta.
  assert (expired (distance countdownDate earlier) = false) as ->
    by (apply Z.ltb_ge; unfold distance; lia).
  destruct (expired (distance countdownDate later));
    cbn [document countdownTimer]; (split; [|reflexivity]);
    apply map_eq; intros id;
    rewrite !lookup_insert; repeat case_decide; reflexivity.
Qed.

(** X6. After a tick at an instant up to the target, the next tick leaves
    the elements and the interval as it would have without the earlier one:
    what the page shows depends on the last tick alone. *)
Theorem later_tick_overwrites
  (countdownDate earlier later : Z) (p p1 p12 : Page) :
  earlier <= countdownDate ->
  updateCountdown countdownDate earlier p = Some (tt, p1) ->
  updateCountdown countdownDate later p1 = Some (tt, p12) ->
  exists p2 : Page,
    updateCountdown countdownDate later p = Some (tt, p2) /\
    document p12 = document p2 /\
    countdownTimer p12 = countdownTimer p2.
Proof.
  intros Hle Hfirst Hsecond.
  destruct (updateCountdown_result _ _ _ _ Hfirst) as (Hslots & _ & ->).
  destruct (updateCountdown_result _ _ _ _ Hsecond) as (_ & Hbox1 & ->).
  destruct (after_tick_running countdownDate earlier p Hle) as (_ & Hbox).
  assert (is_Some (updateCountdown countdownDate later p)) as [[[] p2] Hp2].
  { apply tick_completes_with_elements. split; [exact Hslots|].
    intros Hlt. rewrite <- Hbox. apply Hbox1.
    apply Z.ltb_lt. unfold distance. lia. }
  exists p2. split; [exact Hp2|].
  destruct (updateCountdown_result _ _ _ _ Hp2) as (_ & _ & ->).
  apply after_tick_overwrites, Hle.
Qed.

Lemma later_tick_overwrites_witness :
  1735689597000 <= 1735689599000 /\
  exists p1 p12 p2 : Page,
    updateCountdown 1735689599000 1735689597000 blank_page = Some (tt, p1) /\
    updateCountdown 1735689599000 1735689598000 p1 = Some (tt, p12) /\
    updateCountdown 1735689599000 1735689598000 blank_page = Some (tt, p2) /\
    document p12 = document p2.
Proof.
  split; [vm_compute; discriminate|].
  pose proof (updateCountdown_runs 1735689599000 1735689597000 blank_page
                blank_page_has_elements) as Hfirst.
  pose proof (updateCountdown_runs 1735689599000 1735689598000 _
                (after_tick_has_elements 1735689599000 1735689597000 _
                   blank_page_has_elements)) as Hsecond.
  destruct (later_tick_overwrites 1735689599000 1735689597000 1735689598000
              _ _ _ ltac:(vm_compute; discriminate) Hfirst Hsecond)
    as (p2 & Hp2 & Hdoc & _).
  exists (after_tick 1735689599000 1735689597000 blank_page),
         (after_tick 1735689599000 1735689598000
            (after_tick 1735689599000 1735689597000 blank_page)),
         p2.
  split; [exact Hfirst|]. split; [exact Hsecond|].
  split; [exact Hp2 | exact Hdoc].
Defined.

(** ** More on the arithmetic *)

(** From zero on, the four units are the digits of the whole seconds left,
    in the bases 60, 60 and 24. *)
Lemma units_as_digits (d : Z) :
  0 <= d ->
  days d = d / 1000 / 86400 /\
  hours d = (d / 1000 / 3600) mod 24 /\
  minutes d = (d / 1000 / 60) mod 60 /\
  seconds d = (d / 1000) mod 60.
Proof.
  intros Hd. unfold days, hours, minutes, seconds.
  rewrite !Z.rem_mod_nonneg by lia.
  change (1000 * 60 * 60 * 24) with 86400000.
  change (1000 * 60 * 60) with 3600000.
  change (1000 * 60) with 60000.
  repeat split; Z.to_euclidean_division_equations; lia.
Qed.

(** X7. Two distances from zero on give the same four units exactly when
    they hold the same number of whole seconds: the display tells the
    remaining time to the second, and nothing finer. *)
Theorem units_tell_whole_seconds (d1 d2 : Z) :
  0 <= d1 -> 0 <= d2 ->
  (days d1 = days d2 /\ hours d1 = hours d2 /\
   minutes d1 = minutes d2 /\ seconds d1 = seconds d2) <->
  d1 / 1000 = d2 / 1000.
Proof.
  intros H1 H2.
  destruct (units_as_digits d1 H1) as (Ed1 & Eh1 & Em1 & Es1).
  destruct (units_as_digits d2 H2) as (Ed2 & Eh2 & Em2 & Es2).
  rewrite Ed1, Eh1, Em1, Es1, Ed2, Eh2, Em2, Es2.
  split.
  - intros (Hd & Hh & Hm & Hs).
    revert Hd Hh Hm Hs.
    generalize (d1 / 1000) (d2 / 1000). intros a b.
    Z.to_euclidean_division_equations. lia.
  - intros ->. repeat split.
Qed.

Lemma units_tell_whole_seconds_witness :
  0 <= 90061001 /\ 0 <= 90061999 /\
  (days 90061001 = days 90061999 /\ hours 90061001 = hours 90061999 /\
   minutes 90061001 = minutes 90061999 /\ seconds 90061001 = seconds 90061999).
Proof.
  split; [vm_compute; discriminate|]. split; [vm_compute; discriminate|].
  apply (units_tell_whole_seconds 90061001 90061999);
    [vm_compute; discriminate | vm_compute; discriminate | reflexivity].
Defined.

(** X8. Moving the target a whole number of days away adds that number to
    the days and leaves the hours, the minutes and the seconds alone. *)
Theorem whole_days_shift (d k : Z) :
  0 <= d -> 0 <= k ->
  days (d + k * 86400000) = days d + k /\
  hours (d + k * 86400000) = hours d /\
  minutes (d + k * 86400000) = minutes d /\
  seconds (d + k * 86400000) = seconds d.
Proof.
  intros Hd Hk. unfold days, hours, minutes, seconds.
  rewrite !Z.rem_mod_nonneg by nia.
  change (1000 * 60 * 60 * 24) with 86400000.
  change (1000 * 60 * 60) with 3600000.
  change (1000 * 60) with 60000.
  rewrite Z.div_add by lia.
  rewrite Z.mod_add by lia.
  replace (d + k * 86400000) with (d + (k * 24) * 3600000) at 1 by lia.
  rewrite Z.mod_add by lia.
  replace (d + k * 86400000) with (d + (k * 1440) * 60000) by lia.
  rewrite Z.mod_add by lia.
  repeat split.
Qed.

Lemma whole_days_shift_witness :
  0 <= 90061001 /\ 0 <= 3 /\
  days (90061001 + 3 * 86400000) = days 90061001 + 3 /\
  hours (90061001 + 3 * 86400000) = hours 90061001.
Proof.
  split; [vm_compute; discriminate|]. split; [vm_compute; discriminate|].
  destruct (whole_days_shift 90061001 3) as (Hdays & Hhours & _);
    [vm_compute; discriminate | vm_compute; discriminate |].
  split; [exact Hdays | exact Hhours].
Defined.

(** X9. Below zero the hours stay within -24..0 and the minutes and the
    seconds within -60..0: the ranges are not those of a running
    countdown. *)
Theorem units_expired_range (d : Z) :
  d < 0 ->
  days d <= -1 /\ -24 <= hours d <= 0 /\
  -60 <= minutes d <= 0 /\ -60 <= seconds d <= 0.
Proof.
  intros Hd.
  destruct (units_expired d Hd) as (H1 & H2 & H3 & H4).
  unfold days, hours, minutes, seconds in *.
  change (1000 * 60 * 60 * 24) with 86400000 in *.
  change (1000 * 60 * 60) with 3600000 in *.
  change (1000 * 60) with 60000 in *.
  pose proof (rem_expired d 86400000 Hd ltac:(lia)).
  pose proof (rem_expired d 3600000 Hd ltac:(lia)).
  pose proof (rem_expired d 60000 Hd ltac:(lia)).
  repeat split; try lia; apply Z.div_le_lower_bound; lia.
Qed.

Lemma units_expired_range_witness :
  -86399999 < 0 /\
  days (-86399999) <= -1 /\ -24 <= hours (-86399999) <= 0.
Proof.
  split; [reflexivity|].
  destruct (units_expired_range (-86399999)) as (Hdays & Hhours & _);
    [reflexivity|].
  split; [exact Hdays | exact Hhours].
Defined.

Example units_expired_range_attained :
  hours (-86399999) = -24 /\ minutes (-3599999) = -60 /\
  seconds (-59999) = -60 /\ hours (-1) = -1.
Proof. repeat split. Qed.

(** X10. A tick that comes within a second after the target assigns the
    text -1 to each of the four slots. *)
Theorem first_expired_second (countdownDate now : Z) :
  countdownDate < now <= countdownDate + 1000 ->
  slot_writes countdownDate now =
  [ SetTextContent "days" "-1"; SetTextContent "hours" "-1";
    SetTextContent "minutes" "-1"; SetTextContent "seconds" "-1" ].
Proof.
  intros Hnow. unfold slot_writes. cbv zeta.
  assert (-1000 <= distance countdownDate now < 0) as Hd
    by (unfold distance; lia).
  generalize dependent (distance countdownDate now). intros d Hd.
  assert (days d = -1 /\ hours d = -1 /\ minutes d = -1 /\ seconds d = -1)
    as (-> & -> & -> & ->).
  { unfold days, hours, minutes, seconds.
    change (1000 * 60 * 60 * 24) with 86400000.
    change (1000 * 60 * 60) with 3600000.
    change (1000 * 60) with 60000.
    repeat split; Z.to_euclidean_division_equations; lia. }
  reflexivity.
Qed.

Lemma first_expired_second_witness :
  1735689599000 < 1735689600000 <= 1735689599000 + 1000 /\
  slot_writes 1735689599000 1735689600000 =
  [ SetTextContent "days" "-1"; SetTextContent "hours" "-1";
    SetTextContent "minutes" "-1"; SetTextContent "seconds" "-1" ].
Proof.
  split; [split; [reflexivity | vm_compute; discriminate]|].
  apply (first_expired_second 1735689599000 1735689600000).
  split; [reflexivity | vm_compute; discriminate].
Defined.

(** ** More on the text of a slot *)

(** Below zero the print carries the sign, and so has two characters at
    least. *)
Lemma toString_negative (v : Z) :
  v < 0 -> (2 <= String.length (toString v))%nat.
Proof.
  intros Hv. pose proof (DecimalZ.of_to v) as Hback.
  unfold toString. destruct (Z.to_int v) as [u|u].
  - assert (0 <= Z.of_int (Decimal.Pos u)); [|lia].
    unfold Z.of_int, Z.of_uint. lia.
  - destruct u; cbn; lia.
Qed.

(** The print of an integer reads back as that integer. *)
Lemma toString_reads_back (v : Z) :
  option_map Z.of_int (NilZero.int_of_string (toString v)) = Some v.
Proof.
  unfold toString.
  rewrite NilZero.isi.
  - cbn [option_map]. rewrite DecimalZ.of_to. reflexivity.
  - destruct v; cbn; try discriminate.
    intros [= H]. pose proof (DecimalPos.Unsigned.of_to p) as Hp.
    rewrite H in Hp. discriminate Hp.
  - destruct v; cbn; try discriminate.
    intros [= H]. pose proof (DecimalPos.Unsigned.of_to p) as Hp.
    rewrite H in Hp. discriminate Hp.
Qed.

(** X11. The text of a slot has two characters at least, whatever the
    integer; below zero and from 10 on it is the plain decimal print, the
    sign included, and from 0 to 9 it is that print after one zero. *)
Theorem slot_text_shape (v : Z) :
  (2 <= String.length (slot_text v))%nat /\
  (v < 0 \/ 10 <= v -> slot_text v = toString v) /\
  (0 <= v <= 9 -> slot_text v = "0" +:+ toString v).
Proof.
  assert (v < 0 \/ 10 <= v -> slot_text v = toString v) as Hplain.
  { intros [Hv|Hv]; apply padStart_long.
    - apply toString_negative, Hv.
    - apply toString_from_10, Hv. }
  split; [|split; [exact Hplain | apply slot_text_one_digit]].
  destruct (Z.lt_ge_cases v 0) as [Hneg|Hpos].
  - rewrite Hplain by (left; exact Hneg). apply toString_negative, Hneg.
  - destruct (Z.le_gt_cases 10 v) as [Hbig|Hsmall].
    + rewrite Hplain by (right; exact Hbig). apply toString_from_10, Hbig.
    + rewrite slot_text_upto_99 by lia. lia.
Qed.

Lemma slot_text_shape_witness :
  (-12 < 0 \/ 10 <= -12) /\ slot_text (-12) = toString (-12) /\
  0 <= 4 <= 9 /\ slot_text 4 = "0" +:+ toString 4.
Proof.
  destruct (slot_text_shape (-12)) as (_ & Hplain & _).
  destruct (slot_text_shape 4) as (_ & _ & Hpad).
  split; [left; reflexivity|].
  split; [apply Hplain; left; reflexivity|].
  split; [lia | apply Hpad; lia].
Defined.

(** X12. The text of a slot, read as a decimal numeral, is the value that
    was formatted; two different values never give the same text. *)
Theorem slot_text_reads_back (v : Z) :
  read_slot (slot_text v) = Some v /\
  forall w : Z, slot_text v = slot_text w -> v = w.
Proof.
  assert (forall u : Z, read_slot (slot_text u) = Some u) as Hread.
  { intros u. unfold read_slot.
    destruct (Z.lt_ge_cases u 0) as [Hneg|Hpos];
      [|destruct (Z.le_gt_cases 10 u) as [Hbig|Hsmall]].
    - unfold slot_text. rewrite padStart_long by (apply toString_negative, Hneg).
      apply toString_reads_back.
    - unfold slot_text. rewrite padStart_long by (apply toString_from_10, Hbig).
      apply toString_reads_back.
    - assert (u = 0 \/ u = 1 \/ u = 2 \/ u = 3 \/ u = 4 \/ u = 5 \/ u = 6 \/
              u = 7 \/ u = 8 \/ u = 9) as Hcases by lia.
      repeat (destruct Hcases as [-> | Hcases]; [reflexivity|]).
      subst u. reflexivity. }
  split; [apply Hread|].
  intros w Heq. pose proof (Hread v) as Hv. rewrite Heq, Hread in Hv.
  injection Hv as ->. reflexivity.
Qed.

Lemma slot_text_reads_back_witness :
  read_slot (slot_text 7) = Some 7 /\
  (slot_text 7 = slot_text (3 + 4) /\ 7 = 3 + 4).
Proof.
  destruct (slot_text_reads_back 7) as (Hread & Hinj).
  split; [exact Hread|].
  split; [reflexivity | apply Hinj; reflexivity].
Defined.

Lemma updateCountdown_completes_iff_witness :
  has_slots blank_page /\
  is_Some (updateCountdown 1735689599000 1700000000000 blank_page).
Proof.
  assert (has_slots blank_page) as Hslots
    by (repeat split; vm_compute; eexists; reflexivity).
  split; [exact Hslots|].
  apply (updateCountdown_completes_iff 1735689599000 1700000000000 blank_page).
  split; [exact Hslots|].
  intros _. vm_compute. eexists; reflexivity.
Defined.

(** ** Padding in general *)

Lemma length_append (filler str : string) :
  (String.length filler + String.length str)%nat =
  String.length (filler +:+ str).
Proof.
  induction filler as [|c filler IH]; [reflexivity|].
  simpl. rewrite IH. reflexivity.
Qed.

Lemma length_substring_0 (n : nat) (s : string) :
  (n <= String.length s)%nat ->
  String.length (String.substring 0 n s) = n.
Proof.
  revert s. induction n as [|n IH]; intros s Hn.
  - destruct s; reflexivity.
  - destruct s as [|c s]; [cbn in Hn; lia|].
    cbn [String.substring String.length]. rewrite IH; [reflexivity|].
    cbn in Hn. lia.
Qed.

Lemma length_repeat_string (count : nat) (s : string) :
  String.length (repeat_string count s) = (count * String.length s)%nat.
Proof.
  induction count as [|count IH]; [reflexivity|].
  cbn [repeat_string]. rewrite <- length_append, IH. simpl. lia.
Qed.

(** X13. With a filler that is not empty, the padded string has the longer
    of the two lengths, the one asked for and the one of the string, and ends
    with the string itself; an empty filler gives the string back. *)
Theorem padStart_length (str : string) (maxLength : nat) (fillString : string) :
  (fillString <> EmptyString ->
   String.length (padStart str maxLength fillString) =
   Nat.max maxLength (String.length str)) /\
  (exists filler : string, padStart str maxLength fillString = filler +:+ str) /\
  padStart str maxLength EmptyString = str.
Proof.
  split; [|split].
  - intros Hfill. unfold padStart. cbv zeta.
    destruct (Nat.leb_spec maxLength (String.length str)) as [Hle|Hgt]; [lia|].
    destruct (String.eqb_spec fillString EmptyString) as [Hempty|_];
      [contradiction|].
    rewrite <- length_append, length_substring_0; [lia|].
    rewrite length_repeat_string.
    destruct fillString as [|c rest]; [contradiction|].
    cbn [String.length]. nia.
  - unfold padStart. cbv zeta.
    destruct (maxLength <=? String.length str)%nat;
      [exists EmptyString; reflexivity|].
    destruct (String.eqb fillString EmptyString);
      [exists EmptyString; reflexivity|].
    eexists. reflexivity.
  - unfold padStart. cbv zeta.
    destruct (maxLength <=? String.length str)%nat; reflexivity.
Qed.

Lemma padStart_length_witness :
  "0" <> EmptyString /\
  String.length (padStart "7" 2 "0") = Nat.max 2 (String.length "7").
Proof.
  assert ("0" <> EmptyString) as Hfill by discriminate.
  split; [exact Hfill|].
  apply (padStart_length "7" 2 "0"). exact Hfill.
Defined.
